(** * pkg/ipcache/types: resource attribution and metadata values

    A shallow embedding of [pkg/ipcache/types/types.go] together with the
    parts of the Go standard library its functions call ([strings.Builder],
    [utf8.AppendRune], [strings.SplitN], [strconv.Itoa],
    [netip.Addr.AsSlice]).

    Go strings are sequences of bytes; they are modelled as [string], whose
    characters are 8-bit [ascii] values.  Fixed-width integers are modelled
    as [Z], with the wrap-around of conversions written out. *)

From Stdlib Require Import ZArith Bool List Lia.
From Stdlib Require Import Strings.Ascii Strings.String Numbers.DecimalString.
Import ListNotations.

Open Scope string_scope.
Open Scope Z_scope.

(** ** Fixed-width integers *)

Module Width.

Definition uint8 (z : Z) : Z := z mod 2 ^ 8.
Definition uint32 (z : Z) : Z := z mod 2 ^ 32.

Definition is_uint8 (z : Z) : Prop := 0 <= z < 2 ^ 8.

(** [byte(x)] followed by the reading of the byte as a character. *)
Definition byte (z : Z) : ascii := ascii_of_N (Z.to_N (uint8 z)).

(** The numeric value of a byte, and [len] of a string as an [int]. *)
Definition code (c : ascii) : Z := Z.of_N (N_of_ascii c).
Definition len (s : string) : Z := Z.of_nat (String.length s).

End Width.

(** ** The Go standard library functions used by the package *)

Module GoStrings.

Import Width.

(** [s[:m]] and [s[m:]].  Go panics when [m] is outside [0..len(s)]; every
    slice taken below is at an index returned by [IndexByte], which lemma
    [IndexByte_range] shows to be inside the string. *)
Fixpoint slice_to (s : string) (m : nat) : string :=
  match m, s with
  | S m', String b s' => String b (slice_to s' m')
  | _, _ => EmptyString
  end.

Fixpoint slice_from (s : string) (m : nat) : string :=
  match m, s with
  | S m', String _ s' => slice_from s' m'
  | _, _ => s
  end.

(** [strings.IndexByte]: index of the first byte equal to [c], or [-1].
    [strings.Index] dispatches to it for a separator of one byte. *)
Fixpoint IndexByte (s : string) (c : ascii) : Z :=
  match s with
  | EmptyString => -1
  | String b s' =>
      if Ascii.eqb b c then 0
      else let m := IndexByte s' c in
           if m <? 0 then -1 else m + 1
  end.

(** [strings.Count] for a separator of one byte. *)
Fixpoint Count (s : string) (c : ascii) : Z :=
  match s with
  | EmptyString => 0
  | String b s' => (if Ascii.eqb b c then 1 else 0) + Count s' c
  end.

(** The loop of [genSplit]:
<<
    for i < n { m := Index(s, sep); if m < 0 { break }
                a[i] = s[:m+sepSave]; s = s[m+len(sep):]; i++ }
    a[i] = s
    return a[:i+1]
>>
    [k] is the number of iterations left, [n - i]; the result is the
    filled prefix of [a] from position [i] on. *)
Fixpoint splitLoop (sep : ascii) (sepSave : Z) (k : nat) (s : string)
  : list string :=
  match k with
  | O => [s]
  | S k' =>
      let m := IndexByte s sep in
      if m <? 0 then [s]
      else slice_to s (Z.to_nat (m + sepSave))
             :: splitLoop sep sepSave k' (slice_from s (Z.to_nat (m + 1)))
  end.

(** [genSplit(s, sep, sepSave, n)] for a separator [sep] of one byte (the
    branch for the empty separator is the only one left out). *)
Definition genSplit (s : string) (sep : ascii) (sepSave n : Z)
  : list string :=
  if n =? 0 then []
  else
    let n := if n <? 0 then Count s sep + 1 else n in
    let n := if n >? len s + 1 then len s + 1 else n in
    splitLoop sep sepSave (Z.to_nat (n - 1)) s.

(** [strings.SplitN(s, sep, n)]. *)
Definition SplitN (s : string) (sep : ascii) (n : Z) : list string :=
  genSplit s sep 0 n.

(** [utf8.AppendRune]: the UTF-8 encoding of rune [r] appended to [p]. *)
Definition rune1Max : Z := 0x7F.
Definition rune2Max : Z := 0x7FF.
Definition rune3Max : Z := 0xFFFF.
Definition MaxRune : Z := 0x10FFFF.
Definition surrogateMin : Z := 0xD800.
Definition surrogateMax : Z := 0xDFFF.
Definition RuneError : Z := 0xFFFD.
Definition t2 : Z := 0xC0.
Definition t3 : Z := 0xE0.
Definition t4 : Z := 0xF0.
Definition tx : Z := 0x80.
Definition maskx : Z := 0x3F.

Definition cont (r shift : Z) : ascii :=
  byte (Z.lor tx (Z.land (uint8 (Z.shiftr r shift)) maskx)).

Definition lead (t r shift : Z) : ascii :=
  byte (Z.lor t (uint8 (Z.shiftr r shift))).

Definition enc3 (r : Z) : string :=
  String (lead t3 r 12) (String (cont r 6) (String (cont r 0) "")).

Definition appendRuneNonASCII (p : string) (r : Z) : string :=
  let i := uint32 r in
  if i <=? rune2Max then
    p ++ String (lead t2 r 6) (String (cont r 0) "")
  else if (MaxRune <? i) || ((surrogateMin <=? i) && (i <=? surrogateMax))
  then p ++ enc3 RuneError
  else if i <=? rune3Max then p ++ enc3 r
  else
    p ++ String (lead t4 r 18)
           (String (cont r 12) (String (cont r 6) (String (cont r 0) ""))).

Definition AppendRune (p : string) (r : Z) : string :=
  if uint32 r <=? rune1Max then p ++ String (byte r) ""
  else appendRuneNonASCII p r.

(** [strings.Builder]: the bytes written so far.  [Grow] only reserves
    capacity, which no operation lets a caller observe through the
    content; it panics on a negative count, and [NewResourceID] passes a
    sum of lengths (lemma [NewResourceID_grow_count]). *)
Record Builder : Set := mkBuilder { buf : string }.

Definition zeroBuilder : Builder := mkBuilder "".

Definition Grow (b : Builder) (n : Z) : Builder := b.

Definition WriteString (b : Builder) (s : string) : Builder :=
  mkBuilder (buf b ++ s).

Definition WriteRune (b : Builder) (r : Z) : Builder :=
  mkBuilder (AppendRune (buf b) r).

Definition Builder_String (b : Builder) : string := buf b.

End GoStrings.

(** ** Resource attribution *)

Import Width GoStrings.

Definition ResourceID : Set := string.
Definition ResourceKind : Set := string.

Definition ResourceKindCCNP : ResourceKind := "ccnp".
Definition ResourceKindCIDRGroup : ResourceKind := "cidrgroup".
Definition ResourceKindCNP : ResourceKind := "cnp".
Definition ResourceKindDaemon : ResourceKind := "daemon".
Definition ResourceKindEndpoint : ResourceKind := "ep".
Definition ResourceKindFile : ResourceKind := "file".
Definition ResourceKindNetpol : ResourceKind := "netpol".
Definition ResourceKindNode : ResourceKind := "node".

Definition definedKinds : list ResourceKind :=
  [ResourceKindCCNP; ResourceKindCIDRGroup; ResourceKindCNP;
   ResourceKindDaemon; ResourceKindEndpoint; ResourceKindFile;
   ResourceKindNetpol; ResourceKindNode].

(** The byte and the rune written as ['/'] in the source. *)
Definition slash : ascii := "/"%char.
Definition slashRune : Z := code slash.

Definition NewResourceID (kind : ResourceKind) (namespace name : string)
  : ResourceID :=
  let str := zeroBuilder in
  let str := Grow str (len kind + 1 + len namespace + 1 + len name) in
  let str := WriteString str kind in
  let str := WriteRune str slashRune in
  let str := WriteString str namespace in
  let str := WriteRune str slashRune in
  let str := WriteString str name in
  Builder_String str.

Definition Namespace (r : ResourceID) : string :=
  let parts := SplitN r slash 3 in
  if Z.of_nat (List.length parts) <? 2 then ""
  else nth 1 parts "".

(** The part of the specification called "the '/'-delimited parts": the
    segments of a string between all of its delimiters, with no bound on
    their number.  It follows the words of the specification, not the
    code, and is compared with [Namespace] below. *)
Fixpoint spec_segments (s : string) : list string :=
  match s with
  | EmptyString => [""]
  | String b s' =>
      if Ascii.eqb b slash then "" :: spec_segments s'
      else match spec_segments s' with
           | [] => [String b ""]
           | h :: t => String b h :: t
           end
  end.

(** ** Metadata value types *)

Module GoStrconv.

(** The decimal digit of a value below ten: [digits[u]]. *)
Definition digit (u : Z) : ascii := Width.byte (Width.code "0"%char + u).

(** The digit loop of [strconv.formatBits] in base ten, which fills its
    buffer from the right:
<<
    for u >= b { i--; q := u / b; a[i] = digits[u - q*b]; u = q }
    i--; a[i] = digits[u]
>>
    [acc] is the filled part [a[i:]].  The loop divides a 64-bit value by
    ten on every turn, so that twenty turns exhaust it; [fuel] bounds the
    turns (lemma [Itoa_fuel]).  The shortcuts of the library for small
    values and for two digits at a time print the same digits. *)
Fixpoint formatBits (fuel : nat) (u : Z) (acc : string) : string :=
  match fuel with
  | O => acc
  | S fuel' =>
      if u >=? 10 then
        let q := u / 10 in
        formatBits fuel' q (String (digit (u - q * 10)) acc)
      else String (digit u) acc
  end.

(** [strconv.Itoa(i)], that is [FormatInt(int64(i), 10)]: the digits of the
    magnitude of [i], after a minus sign when [i] is negative. *)
Definition Itoa (i : Z) : string :=
  if i <? 0 then String "-"%char (formatBits 20 (- i) "")
  else formatBits 20 i "".

End GoStrconv.

(** [EncryptKey] is a [uint8]: a [Z] in [0 .. 255]. *)
Definition EncryptKey : Set := Z.

Definition EncryptKeyEmpty : EncryptKey := Width.uint8 0.

Definition EncryptKey_IsValid (e : EncryptKey) : bool :=
  negb (e =? EncryptKeyEmpty).

Definition EncryptKey_Uint8 (e : EncryptKey) : Z := Width.uint8 e.

(** [int(e)] leaves the value of a [uint8] as it is. *)
Definition EncryptKey_String (e : EncryptKey) : string :=
  GoStrconv.Itoa e.

(** The decimal representation of a number as the specification means it,
    taken from the standard library's decimal printer. *)
Definition spec_decimal (k : Z) : string :=
  NilZero.string_of_int (Z.to_int k).

(** Modelled from the spec: the type [identity.NumericIdentity], which is
    declared in [pkg/identity] and not in this package.  The specification
    describes it as the numeric domain of the identity allocator, a small
    integer identifier; it is taken as an integer type, and its width plays
    no part in the methods below. *)
Definition NumericIdentity : Set := Z.

(** [type RequestedIdentity identity.NumericIdentity]: the two types have
    the same underlying type, so that the conversions [RequestedIdentity(v)]
    and [identity.NumericIdentity(id)] keep the value. *)
Definition RequestedIdentity : Set := NumericIdentity.

Definition toRequestedIdentity (v : NumericIdentity) : RequestedIdentity := v.
Definition toNumericIdentity (id : RequestedIdentity) : NumericIdentity := id.

Definition RequestedIdentity_IsValid (id : RequestedIdentity) : bool :=
  negb (id =? 0).

Definition RequestedIdentity_ID (id : RequestedIdentity) : NumericIdentity :=
  toNumericIdentity id.

(** [EndpointFlags], its zero value, and its methods.  [SetSkipTunnel] has a
    pointer receiver: it is a transformer of the value pointed to. *)
Record EndpointFlags : Set := mkEndpointFlags {
  isInit : bool;
  flagSkipTunnel : bool
}.

Definition zeroEndpointFlags : EndpointFlags :=
  mkEndpointFlags false false.

Definition SetSkipTunnel (e : EndpointFlags) (skip : bool) : EndpointFlags :=
  let e := mkEndpointFlags true (flagSkipTunnel e) in
  mkEndpointFlags (isInit e) skip.

Definition EndpointFlags_IsValid (e : EndpointFlags) : bool := isInit e.

(** [FlagSkipTunnel uint8 = 1 << iota], the first constant of its block. *)
Definition FlagSkipTunnel : Z := Width.uint8 (Z.shiftl 1 0).

Definition EndpointFlags_Uint8 (e : EndpointFlags) : Z :=
  let flags := 0 in
  let flags := if flagSkipTunnel e then Z.lor flags FlagSkipTunnel
               else flags in
  flags.

(** The operations of the type, and a program that applies a sequence of
    them to one value.  [IsValid] and [Uint8] have value receivers: they
    read a copy and leave the value as it is. *)
Inductive EndpointFlagsOp : Set :=
| OpSetSkipTunnel (skip : bool)
| OpIsValid
| OpUint8.

Definition applyOp (e : EndpointFlags) (op : EndpointFlagsOp)
  : EndpointFlags :=
  match op with
  | OpSetSkipTunnel skip => SetSkipTunnel e skip
  | OpIsValid => e
  | OpUint8 => e
  end.

Definition applyOps (e : EndpointFlags) (ops : list EndpointFlagsOp)
  : EndpointFlags :=
  fold_left applyOp ops e.

Definition isSetter (op : EndpointFlagsOp) : bool :=
  match op with
  | OpSetSkipTunnel _ => true
  | _ => false
  end.

(** "Contains no ['/']", in terms of [strings.Count]. *)
Definition NoSlash (s : string) : Prop := Count s slash = 0.

(** ** The tunnel peer *)

Module GoNetip.

Import Width.

(** [netip.Addr]: the 128 bits of an address as two 64-bit words, and the
    field [z] that tells the zero [Addr] ([z0]), an IPv4 address ([z4]) and
    an IPv6 address with its zone (the empty zone for [z6noz]). *)
Inductive addrZone : Set :=
| z0
| z4
| z6 (zone : string).

Record Addr : Set := mkAddr { hi : Z; lo : Z; z : addrZone }.

Definition is_uint64 (v : Z) : Prop := 0 <= v < 2 ^ 64.

(** [byteorder.BEPutUint32] and [byteorder.BEPutUint64]: the bytes of [v],
    the most significant one first. *)
Definition BEPutUint32 (v : Z) : list Z :=
  [uint8 (Z.shiftr v 24); uint8 (Z.shiftr v 16); uint8 (Z.shiftr v 8);
   uint8 v].

Definition BEPutUint64 (v : Z) : list Z :=
  [uint8 (Z.shiftr v 56); uint8 (Z.shiftr v 48); uint8 (Z.shiftr v 40);
   uint8 (Z.shiftr v 32); uint8 (Z.shiftr v 24); uint8 (Z.shiftr v 16);
   uint8 (Z.shiftr v 8); uint8 v].

(** [Addr.AsSlice]: [nil] for the zero [Addr], four bytes for IPv4 (the low
    32 bits of the address), sixteen bytes otherwise. *)
Definition AsSlice (ip : Addr) : list Z :=
  match z ip with
  | z0 => []
  | z4 => BEPutUint32 (uint32 (lo ip))
  | z6 _ => BEPutUint64 (hi ip) ++ BEPutUint64 (lo ip)
  end.

(** The number that a sequence of bytes writes, the most significant byte
    first. *)
Definition BEValue (bs : list Z) : Z :=
  fold_left (fun acc b => acc * 256 + b) bs 0.

End GoNetip.

(** [type TunnelPeer struct{ netip.Addr }] and its method [IP]. *)
Record TunnelPeer : Set := mkTunnelPeer { Addr : GoNetip.Addr }.

Definition TunnelPeer_IP (t : TunnelPeer) : list Z :=
  GoNetip.AsSlice (Addr t).

(** ** Reading decimal digits *)

Definition isDigit (c : ascii) : bool :=
  (code "0"%char <=? code c) && (code c <=? code "9"%char).

(** The number that a string of decimal digits writes. *)
Definition decimalValue (s : string) : Z :=
  fold_left (fun acc c => acc * 10 + (code c - code "0"%char))
    (list_ascii_of_string s) 0.

(** * Properties *)

Example NewResourceID_cnp :
  NewResourceID ResourceKindCNP "kube-system" "allow-dns"
  = "cnp/kube-system/allow-dns".
Proof. reflexivity. Qed.

Example Namespace_bounded : Namespace "cnp/ns/a/b/c" = "ns".
Proof. reflexivity. Qed.

Example Itoa_255 : GoStrconv.Itoa 255 = "255" /\ spec_decimal 255 = "255"
  /\ GoStrconv.Itoa 0 = "0" /\ spec_decimal 0 = "0" /\ GoStrconv.Itoa (-12) = "-12".
Proof. repeat split; reflexivity. Qed.

(** ** Strings, slices and the search for a byte *)

Section StringFacts.

Lemma app_empty_r (s : string) : s ++ "" = s.
Proof. induction s as [|b s IH]; simpl; [reflexivity | now rewrite IH]. Qed.

Lemma app_assoc (a b c : string) : (a ++ b) ++ c = a ++ b ++ c.
Proof. induction a as [|x a IH]; simpl; [reflexivity | now rewrite IH]. Qed.

Lemma len_app (a b : string) : len (a ++ b) = len a + len b.
Proof.
  unfold len. induction a as [|x a IH]; simpl String.length.
  - reflexivity.
  - rewrite !Nat2Z.inj_succ, IH. lia.
Qed.

Lemma len_nonneg (s : string) : 0 <= len s.
Proof. unfold len. lia. Qed.

Lemma len_String (b : ascii) (s : string) : len (String b s) = len s + 1.
Proof. unfold len. simpl String.length. lia. Qed.

Lemma slice_to_app (a b : string) :
  slice_to (a ++ b) (String.length a) = a.
Proof.
  induction a as [|x a IH]; simpl.
  - destruct b; reflexivity.
  - now rewrite IH.
Qed.

Lemma slice_from_app (a b : string) :
  slice_from (a ++ b) (String.length a) = b.
Proof. induction a as [|x a IH]; simpl; [now destruct b | exact IH]. Qed.

Lemma slice_from_app_byte (a : string) (x : ascii) (b : string) :
  slice_from (a ++ String x b) (S (String.length a)) = b.
Proof. induction a as [|y a IH]; simpl; [now destruct b | exact IH]. Qed.

Variable c : ascii.

Lemma Count_nonneg (s : string) : 0 <= Count s c.
Proof.
  induction s as [|b s IH]; simpl; [lia |].
  destruct (Ascii.eqb b c); lia.
Qed.

Lemma Count_app (a b : string) : Count (a ++ b) c = Count a c + Count b c.
Proof.
  induction a as [|x a IH]; simpl; [reflexivity |].
  rewrite IH. lia.
Qed.

(** The index found is inside the string, so that the slices of
    [splitLoop] are all in range. *)
Lemma IndexByte_range (s : string) :
  IndexByte s c = -1 \/ 0 <= IndexByte s c < len s.
Proof.
  induction s as [|b s IH]; simpl; [now left |].
  rewrite len_String.
  destruct (Ascii.eqb b c); [right; pose proof (len_nonneg s); lia |].
  destruct IH as [-> | IH]; simpl; [now left |].
  destruct (Z.ltb_spec (IndexByte s c) 0); [lia | right; lia].
Qed.

Lemma IndexByte_absent (s : string) :
  Count s c = 0 -> IndexByte s c = -1.
Proof.
  induction s as [|b s IH]; simpl; [reflexivity |].
  pose proof (Count_nonneg s).
  destruct (Ascii.eqb b c); [lia |].
  intros H0. rewrite IH by lia. reflexivity.
Qed.

Lemma IndexByte_present (s : string) :
  0 < Count s c -> 0 <= IndexByte s c.
Proof.
  induction s as [|b s IH]; simpl; [lia |].
  destruct (Ascii.eqb b c); [lia |].
  intros H0. specialize (IH ltac:(lia)).
  destruct (Z.ltb_spec (IndexByte s c) 0); lia.
Qed.

Lemma IndexByte_first (a b : string) :
  Count a c = 0 -> IndexByte (a ++ String c b) c = len a.
Proof.
  induction a as [|x a IH]; simpl.
  - now rewrite Ascii.eqb_refl.
  - pose proof (Count_nonneg a). rewrite len_String.
    destruct (Ascii.eqb x c); [lia |].
    intros H0. rewrite IH by lia.
    pose proof (len_nonneg a).
    destruct (Z.ltb_spec (len a) 0); lia.
Qed.

(** A string in which the byte occurs splits at its first occurrence. *)
Lemma first_occurrence (s : string) :
  0 < Count s c ->
  exists a b, s = a ++ String c b /\ Count a c = 0
              /\ Count b c = Count s c - 1.
Proof.
  induction s as [|x s IH]; cbn [Count]; [lia |].
  destruct (Ascii.eqb_spec x c) as [-> | Hne].
  - intros _. exists "", s. cbn [Count append].
    repeat split; lia || reflexivity.
  - intros H0. destruct (IH ltac:(lia)) as (a & b & -> & Ha & Hb).
    exists (String x a), b. cbn [Count append].
    destruct (Ascii.eqb_spec x c); [contradiction |].
    repeat split; lia || reflexivity.
Qed.

(** The loop of [genSplit] on a string without the separator, and on a
    string cut at the first separator. *)
Lemma splitLoop_absent (k : nat) (s : string) :
  Count s c = 0 -> splitLoop c 0 k s = [s].
Proof.
  intros H0. destruct k; simpl; [reflexivity |].
  now rewrite (IndexByte_absent s H0).
Qed.

Lemma splitLoop_first (k : nat) (a b : string) :
  Count a c = 0 ->
  splitLoop c 0 (S k) (a ++ String c b) = a :: splitLoop c 0 k b.
Proof.
  intros H0. simpl. rewrite (IndexByte_first a b H0).
  pose proof (len_nonneg a).
  destruct (Z.ltb_spec (len a) 0); [lia |].
  unfold len. rewrite Z.add_0_r, Nat2Z.id.
  replace (Z.to_nat (Z.of_nat (String.length a) + 1))
    with (S (String.length a)) by lia.
  now rewrite slice_to_app, slice_from_app_byte.
Qed.

Lemma splitLoop_length (k : nat) (s : string) :
  (1 <= List.length (splitLoop c 0 k s) <= S k)%nat.
Proof.
  revert s. induction k as [|k IH]; intros s; simpl; [lia |].
  destruct (IndexByte s c <? 0); simpl; [lia |].
  specialize (IH (slice_from s (Z.to_nat (IndexByte s c + 1)))). lia.
Qed.

End StringFacts.

(** ** Construction and namespace extraction of a ResourceID *)

Section ResourceIDFacts.

Lemma NoSlash_In (s : string) :
  NoSlash s <-> ~ In slash (list_ascii_of_string s).
Proof.
  unfold NoSlash. induction s as [|b s IH]; cbn [Count list_ascii_of_string].
  - split; [intros _ [] | reflexivity].
  - pose proof (Count_nonneg slash s).
    destruct (Ascii.eqb_spec b slash) as [-> | Hne]; split.
    + lia.
    + intros H0. exfalso. apply H0. now left.
    + intros H0 [H1 | H1]; [now apply Hne | apply IH; [lia | exact H1]].
    + intros H0. rewrite Z.add_0_l. apply IH. intros H1. apply H0. now right.
Qed.

Lemma definedKinds_NoSlash : Forall NoSlash definedKinds.
Proof. repeat constructor. Qed.

(** Writing the rune ['/'] appends the one byte ['/']. *)
Lemma AppendRune_slash (p : string) :
  AppendRune p slashRune = p ++ String slash "".
Proof. reflexivity. Qed.

Lemma NewResourceID_eq (kind : ResourceKind) (namespace name : string) :
  NewResourceID kind namespace name = kind ++ "/" ++ namespace ++ "/" ++ name.
Proof.
  unfold NewResourceID, Builder_String, WriteString, WriteRune, Grow.
  cbn [buf zeroBuilder]. rewrite !AppendRune_slash.
  cbn [append]. now rewrite !app_assoc.
Qed.

(** The count handed to [Grow] is not negative: [Grow] does not panic. *)
Lemma NewResourceID_grow_count (kind : ResourceKind) (namespace name : string) :
  0 <= len kind + 1 + len namespace + 1 + len name.
Proof.
  pose proof (len_nonneg kind). pose proof (len_nonneg namespace).
  pose proof (len_nonneg name). lia.
Qed.

(** [SplitN(s, "/", 3)] runs the loop of [genSplit] at most twice, and,
    on a string that is not empty, at least once if a delimiter is there. *)
Lemma SplitN_3 (s : string) :
  SplitN s slash 3
  = splitLoop slash 0 (if len s <? 2 then Z.to_nat (len s) else 2%nat) s.
Proof.
  unfold SplitN, genSplit. cbn [Z.eqb Z.ltb Z.compare].
  rewrite Z.gtb_ltb. pose proof (len_nonneg s).
  destruct (Z.ltb_spec (len s + 1) 3); destruct (Z.ltb_spec (len s) 2);
    try lia; f_equal; lia.
Qed.

Lemma SplitN_absent (s : string) :
  NoSlash s -> SplitN s slash 3 = [s].
Proof. intros H0. rewrite SplitN_3. now apply splitLoop_absent. Qed.

Lemma SplitN_one (a b : string) :
  NoSlash a -> NoSlash b -> SplitN (a ++ "/" ++ b) slash 3 = [a; b].
Proof.
  intros Ha Hb. rewrite SplitN_3.
  change (a ++ "/" ++ b) with (a ++ String slash b).
  assert (Hk : exists k, (if len (a ++ String slash b) <? 2
                          then Z.to_nat (len (a ++ String slash b))
                          else 2%nat) = S k).
  { rewrite len_app, len_String.
    pose proof (len_nonneg a). pose proof (len_nonneg b).
    destruct (Z.ltb_spec (len a + (len b + 1)) 2).
    - exists (Z.to_nat (len a + len b)). lia.
    - now exists 1%nat. }
  destruct Hk as [k ->].
  rewrite (splitLoop_first slash k a b Ha).
  now rewrite (splitLoop_absent slash k b Hb).
Qed.

Lemma SplitN_two (a b c : string) :
  NoSlash a -> NoSlash b ->
  SplitN (a ++ "/" ++ b ++ "/" ++ c) slash 3 = [a; b; c].
Proof.
  intros Ha Hb. rewrite SplitN_3.
  change (a ++ "/" ++ b ++ "/" ++ c)
    with (a ++ String slash (b ++ String slash c)).
  rewrite len_app, len_String, len_app, len_String.
  pose proof (len_nonneg a). pose proof (len_nonneg b).
  pose proof (len_nonneg c).
  destruct (Z.ltb_spec (len a + (len b + (len c + 1) + 1)) 2); [lia |].
  rewrite (splitLoop_first slash 1 a _ Ha).
  now rewrite (splitLoop_first slash 0 b _ Hb).
Qed.

(** The unbounded split of the specification, on a string without a
    delimiter and on a string cut at its first delimiter. *)
Lemma spec_segments_absent (s : string) :
  NoSlash s -> spec_segments s = [s].
Proof.
  unfold NoSlash. induction s as [|b s IH]; cbn [Count spec_segments].
  - reflexivity.
  - pose proof (Count_nonneg slash s).
    destruct (Ascii.eqb b slash); [lia |].
    intros H0. now rewrite IH by lia.
Qed.

Lemma spec_segments_first (a b : string) :
  NoSlash a -> spec_segments (a ++ "/" ++ b) = a :: spec_segments b.
Proof.
  unfold NoSlash. induction a as [|x a IH]; cbn [Count spec_segments append].
  - reflexivity.
  - pose proof (Count_nonneg slash a).
    destruct (Ascii.eqb x slash); [lia |].
    intros H0. cbn [append] in IH. now rewrite IH by lia.
Qed.

(** Every string has no delimiter, exactly one, or a first and a second
    one followed by anything. *)
Lemma delimiter_cases (r : string) :
  NoSlash r
  \/ (exists a b, r = a ++ "/" ++ b /\ NoSlash a /\ NoSlash b)
  \/ (exists a b c, r = a ++ "/" ++ b ++ "/" ++ c /\ NoSlash a /\ NoSlash b).
Proof.
  pose proof (Count_nonneg slash r) as Hr.
  destruct (Z.eq_dec (Count r slash) 0) as [H0 | H0]; [now left | right].
  destruct (first_occurrence slash r ltac:(lia)) as (a & b & -> & Ha & Hb).
  pose proof (Count_nonneg slash b) as Hb0.
  destruct (Z.eq_dec (Count b slash) 0) as [H1 | H1].
  - left. now exists a, b.
  - right.
    destruct (first_occurrence slash b ltac:(lia)) as (b1 & c & -> & Hb1 & _).
    now exists a, b1, c.
Qed.

Lemma Namespace_absent (r : string) : NoSlash r -> Namespace r = "".
Proof. intros H0. unfold Namespace. now rewrite SplitN_absent. Qed.

Lemma Namespace_one (a b : string) :
  NoSlash a -> NoSlash b -> Namespace (a ++ "/" ++ b) = b.
Proof. intros Ha Hb. unfold Namespace. now rewrite SplitN_one. Qed.

Lemma Namespace_two (a b c : string) :
  NoSlash a -> NoSlash b -> Namespace (a ++ "/" ++ b ++ "/" ++ c) = b.
Proof. intros Ha Hb. unfold Namespace. now rewrite SplitN_two. Qed.

Lemma spec_segments_head (s : string) :
  exists h t, spec_segments s = h :: t.
Proof.
  induction s as [|b s (h & t & IH)]; cbn [spec_segments].
  - now exists "", [].
  - destruct (Ascii.eqb b slash); [now eexists _, _ |].
    rewrite IH. now eexists _, _.
Qed.

(** [Namespace] returns the second of the segments of the unbounded
    split, or the empty string when there is none. *)
Lemma Namespace_spec_segments (r : string) :
  Namespace r = nth 1 (spec_segments r) "".
Proof.
  destruct (delimiter_cases r)
    as [H0 | [(a & b & -> & Ha & Hb) | (a & b & c & -> & Ha & Hb)]].
  - now rewrite Namespace_absent, spec_segments_absent.
  - rewrite Namespace_one, spec_segments_first, spec_segments_absent;
      trivial.
  - rewrite Namespace_two, !spec_segments_first; trivial.
Qed.

(** The test [len(parts) < 2] of [Namespace] succeeds on the strings
    without a delimiter, and on no other. *)
Lemma fallback_iff (r : string) :
  (Z.of_nat (List.length (SplitN r slash 3)) <? 2) = true <-> NoSlash r.
Proof.
  destruct (delimiter_cases r)
    as [H0 | [(a & b & -> & Ha & Hb) | (a & b & c & -> & Ha & Hb)]].
  - rewrite SplitN_absent by trivial. now split.
  - rewrite SplitN_one by trivial. split; [discriminate |].
    unfold NoSlash. change (a ++ "/" ++ b) with (a ++ String slash b).
    rewrite Count_app. cbn [Count]. rewrite Ascii.eqb_refl.
    pose proof (Count_nonneg slash a). pose proof (Count_nonneg slash b).
    lia.
  - rewrite SplitN_two by trivial. split; [discriminate |].
    unfold NoSlash.
    change (a ++ "/" ++ b ++ "/" ++ c)
      with (a ++ String slash (b ++ String slash c)).
    rewrite Count_app. cbn [Count]. rewrite Ascii.eqb_refl.
    pose proof (Count_nonneg slash a).
    pose proof (Count_nonneg slash (b ++ String slash c)).
    lia.
Qed.

End ResourceIDFacts.

(** The round trip of the namespace for every kind without ['/'], of
    which the defined kinds are instances. *)
Lemma Namespace_NewResourceID_NoSlash
  (kind : ResourceKind) (namespace name : string) :
  NoSlash kind -> NoSlash namespace ->
  Namespace (NewResourceID kind namespace name) = namespace.
Proof.
  intros Hk Hn. rewrite NewResourceID_eq. now apply Namespace_two.
Qed.

(** C1.  For every kind, taken among the defined ResourceKind values as the
    contract on kinds has it, and every namespace and name that contain no
    ['/'], the namespace of [NewResourceID kind namespace name] is exactly
    [namespace]; in particular, for every kind, the namespace of
    [NewResourceID kind "" ""] is the empty string. *)
Theorem Namespace_NewResourceID :
  (forall (kind : ResourceKind) (namespace name : string),
      In kind definedKinds -> NoSlash namespace -> NoSlash name ->
      Namespace (NewResourceID kind namespace name) = namespace)
  /\ (forall kind : ResourceKind,
        In kind definedKinds ->
        Namespace (NewResourceID kind "" "") = "").
Proof.
  pose proof definedKinds_NoSlash as Hkinds.
  rewrite Forall_forall in Hkinds.
  split.
  - intros kind namespace name Hin Hn _.
    apply Namespace_NewResourceID_NoSlash; [now apply Hkinds | exact Hn].
  - intros kind Hin.
    apply Namespace_NewResourceID_NoSlash; [now apply Hkinds | reflexivity].
Qed.

Lemma Namespace_NewResourceID_witness :
  Namespace (NewResourceID ResourceKindCNP "kube-system" "allow-dns")
  = "kube-system"
  /\ Namespace (NewResourceID ResourceKindDaemon "" "") = "".
Proof.
  split.
  - apply (proj1 Namespace_NewResourceID
             ResourceKindCNP "kube-system" "allow-dns");
      [do 2 right; left; reflexivity | reflexivity | reflexivity].
  - apply (proj2 Namespace_NewResourceID ResourceKindDaemon).
    do 3 right; left; reflexivity.
Defined.

(** C2.  [NewResourceID kind namespace name] is the string
    kind + "/" + namespace + "/" + name, with both delimiters there also
    when namespace and name are empty; the two examples of the
    specification evaluate to the strings it gives. *)
Theorem NewResourceID_encoding :
  (forall (kind : ResourceKind) (namespace name : string),
      NewResourceID kind namespace name
      = kind ++ "/" ++ namespace ++ "/" ++ name)
  /\ (forall kind : ResourceKind, NewResourceID kind "" "" = kind ++ "//")
  /\ NewResourceID ResourceKindCNP "kube-system" "allow-dns"
     = "cnp/kube-system/allow-dns"
  /\ NewResourceID ResourceKindDaemon "" "startup" = "daemon//startup".
Proof.
  split; [exact NewResourceID_eq |].
  split; [intros kind; now rewrite NewResourceID_eq |].
  split; reflexivity.
Qed.

(** C4.  [Namespace] is a total function of the string: it splits on ['/']
    into at least one and at most three parts and returns the second
    segment, which is the empty string when fewer than two segments exist;
    so a name that itself contains ['/'] leaves the namespace of a
    constructed ResourceID as it was given. *)
Theorem Namespace_total_bounded_split :
  (forall r : ResourceID,
      (1 <= List.length (SplitN r slash 3) <= 3)%nat)
  /\ (forall r : ResourceID, Namespace r = nth 1 (spec_segments r) "")
  /\ (forall r : ResourceID,
        (List.length (spec_segments r) < 2)%nat -> Namespace r = "")
  /\ (forall (kind : ResourceKind) (namespace name : string),
        NoSlash kind -> NoSlash namespace ->
        Namespace (NewResourceID kind namespace name) = namespace).
Proof.
  split; [| split; [| split]].
  - intros r. rewrite SplitN_3.
    pose proof (splitLoop_length slash
                  (if len r <? 2 then Z.to_nat (len r) else 2%nat) r) as H.
    pose proof (len_nonneg r).
    destruct (Z.ltb_spec (len r) 2); lia.
  - exact Namespace_spec_segments.
  - intros r Hlen. rewrite Namespace_spec_segments.
    apply nth_overflow. lia.
  - intros kind namespace name Hk Hn.
    rewrite NewResourceID_eq. now apply Namespace_two.
Qed.

Lemma Namespace_total_bounded_split_witness :
  Namespace "daemon" = ""
  /\ Namespace (NewResourceID ResourceKindFile "ns" "etc/cilium/a/b") = "ns".
Proof.
  destruct Namespace_total_bounded_split as (_ & _ & Hfew & Hname).
  split.
  - apply (Hfew "daemon"). simpl. lia.
  - apply (Hname ResourceKindFile "ns" "etc/cilium/a/b"); reflexivity.
Defined.

(** C10.  On a string with exactly one ['/'] [Namespace] returns the text
    after that ['/'], not the empty string of the fallback; the test
    [len(parts) < 2] that guards the fallback succeeds exactly on the
    strings with no ['/'] at all. *)
Theorem Namespace_single_delimiter (r : ResourceID) :
  (Count r slash = 1 ->
   exists a b : string,
     r = a ++ "/" ++ b /\ NoSlash a /\ NoSlash b /\ Namespace r = b)
  /\ ((Z.of_nat (List.length (SplitN r slash 3)) <? 2) = true <-> NoSlash r).
Proof.
  split; [| apply fallback_iff].
  intros H1.
  destruct (first_occurrence slash r ltac:(lia)) as (a & b & -> & Ha & Hb).
  exists a, b. rewrite H1 in Hb.
  repeat split; trivial. now apply Namespace_one.
Qed.

Lemma Namespace_single_delimiter_witness :
  (exists a b : string,
      "kind/ns" = a ++ "/" ++ b /\ NoSlash a /\ NoSlash b
      /\ Namespace "kind/ns" = b)
  /\ Namespace "kind/ns" = "ns".
Proof.
  split.
  - apply (proj1 (Namespace_single_delimiter "kind/ns")). reflexivity.
  - reflexivity.
Defined.

(** ** Metadata values *)

Section EndpointFlagsFacts.

Lemma SetSkipTunnel_fields (e : EndpointFlags) (skip : bool) :
  SetSkipTunnel e skip = mkEndpointFlags true skip.
Proof. reflexivity. Qed.

Lemma Uint8_of_flag (e : EndpointFlags) :
  EndpointFlags_Uint8 e = if flagSkipTunnel e then 1 else 0.
Proof. unfold EndpointFlags_Uint8. now destruct (flagSkipTunnel e). Qed.

Lemma applyOp_IsValid (e : EndpointFlags) (op : EndpointFlagsOp) :
  EndpointFlags_IsValid (applyOp e op)
  = EndpointFlags_IsValid e || isSetter op.
Proof.
  destruct op; cbn [applyOp isSetter].
  - now rewrite orb_true_r.
  - now rewrite orb_false_r.
  - now rewrite orb_false_r.
Qed.

(** After a sequence of operations the value is initialized exactly when
    it was so before, or one of the operations was a setter. *)
Lemma applyOps_IsValid (ops : list EndpointFlagsOp) (e : EndpointFlags) :
  EndpointFlags_IsValid (applyOps e ops)
  = EndpointFlags_IsValid e || existsb isSetter ops.
Proof.
  unfold applyOps. revert e.
  induction ops as [|op ops IH]; intros e; cbn [fold_left existsb].
  - now rewrite orb_false_r.
  - now rewrite IH, applyOp_IsValid, orb_assoc.
Qed.

End EndpointFlagsFacts.

(** C3.  In [Uint8()] of any [EndpointFlags], bit 0 is set exactly when the
    skip-tunnel flag is, every other bit is zero, and the value is 0 or 1. *)
Theorem EndpointFlags_Uint8_layout (e : EndpointFlags) (i : Z) :
  1 <= i ->
  Z.testbit (EndpointFlags_Uint8 e) 0 = flagSkipTunnel e
  /\ Z.testbit (EndpointFlags_Uint8 e) i = false
  /\ (EndpointFlags_Uint8 e = 0 \/ EndpointFlags_Uint8 e = 1).
Proof.
  intros Hi. rewrite Uint8_of_flag.
  destruct (flagSkipTunnel e); (split; [reflexivity | split]).
  - destruct i; [lia | reflexivity | lia].
  - now right.
  - apply Z.testbit_0_l.
  - now left.
Qed.

Lemma EndpointFlags_Uint8_layout_witness :
  Z.testbit (EndpointFlags_Uint8 (mkEndpointFlags true true)) 0 = true
  /\ Z.testbit (EndpointFlags_Uint8 (mkEndpointFlags true true)) 7 = false
  /\ (EndpointFlags_Uint8 (mkEndpointFlags true true) = 0
      \/ EndpointFlags_Uint8 (mkEndpointFlags true true) = 1).
Proof.
  apply (EndpointFlags_Uint8_layout (mkEndpointFlags true true) 7). lia.
Defined.

(** C5.  [SetSkipTunnel] always yields an initialized value, whose [Uint8()]
    is 1 after [SetSkipTunnel(true)] and 0 after [SetSkipTunnel(false)];
    and an operation of the type that changes the value is a call of
    [SetSkipTunnel]. *)
Theorem SetSkipTunnel_initializes (e : EndpointFlags) :
  EndpointFlags_IsValid (SetSkipTunnel e true) = true
  /\ EndpointFlags_Uint8 (SetSkipTunnel e true) = 1
  /\ EndpointFlags_IsValid (SetSkipTunnel e false) = true
  /\ EndpointFlags_Uint8 (SetSkipTunnel e false) = 0
  /\ (forall op : EndpointFlagsOp,
        applyOp e op = e \/ exists skip, op = OpSetSkipTunnel skip).
Proof.
  repeat split.
  intros [skip | |]; [right; now exists skip | now left | now left].
Qed.

(** C6.  The zero value of [EndpointFlags] is not valid and its [Uint8()]
    is 0. *)
Theorem zeroEndpointFlags_fresh :
  EndpointFlags_IsValid zeroEndpointFlags = false
  /\ EndpointFlags_Uint8 zeroEndpointFlags = 0.
Proof. split; reflexivity. Qed.

(** C7.  Once a value is initialized, no sequence of operations of the type
    brings it back: it is still initialized after any sequence of them, in
    particular after any sequence that follows a call of the setter. *)
Theorem Initialized_is_terminal :
  (forall (e : EndpointFlags) (ops : list EndpointFlagsOp),
      EndpointFlags_IsValid e = true ->
      EndpointFlags_IsValid (applyOps e ops) = true)
  /\ (forall (e : EndpointFlags) (skip : bool) (ops : list EndpointFlagsOp),
        EndpointFlags_IsValid (applyOps (SetSkipTunnel e skip) ops) = true).
Proof.
  split.
  - intros e ops He. now rewrite applyOps_IsValid, He.
  - intros e skip ops. now rewrite applyOps_IsValid.
Qed.

Lemma Initialized_is_terminal_witness :
  EndpointFlags_IsValid
    (applyOps (mkEndpointFlags true false)
       [OpUint8; OpSetSkipTunnel true; OpIsValid; OpSetSkipTunnel false])
  = true.
Proof.
  apply (proj1 Initialized_is_terminal (mkEndpointFlags true false)
           [OpUint8; OpSetSkipTunnel true; OpIsValid; OpSetSkipTunnel false]).
  reflexivity.
Defined.

Section EncryptKeyFacts.

(** Every [uint8] is one of the 256 values [0 .. 255]. *)
Lemma uint8_enumerated (P : Z -> bool) :
  forallb (fun n => P (Z.of_nat n)) (seq 0 256) = true ->
  forall k, is_uint8 k -> P k = true.
Proof.
  intros Hall k [Hlo Hhi].
  rewrite forallb_forall in Hall.
  specialize (Hall (Z.to_nat k)). rewrite Z2Nat.id in Hall by exact Hlo.
  apply Hall. apply in_seq. change (2 ^ 8) with 256 in Hhi. lia.
Qed.

(** The digit loop does not depend on its bound once the bound covers the
    number of digits; twenty turns cover every 64-bit value. *)
Lemma formatBits_fuel (n : nat) :
  forall (fuel : nat) (u : Z) (acc : string),
    (S n <= fuel)%nat -> 0 <= u < 10 ^ Z.of_nat (S n) ->
    GoStrconv.formatBits fuel u acc = GoStrconv.formatBits (S n) u acc.
Proof.
  induction n as [|n IH]; intros fuel u acc Hf Hu;
    (destruct fuel as [|fuel]; [lia |]);
    cbn [GoStrconv.formatBits]; destruct (Z.geb_spec u 10) as [Hge | Hlt];
    trivial.
  - change (10 ^ Z.of_nat 1) with 10 in Hu. lia.
  - rewrite Nat2Z.inj_succ, Z.pow_succ_r in Hu by lia.
    apply IH; [lia |].
    split; [apply Z.div_pos; lia | apply Z.div_lt_upper_bound; lia].
Qed.

Lemma Itoa_fuel (fuel : nat) (i : Z) :
  (20 <= fuel)%nat -> 0 <= i < 2 ^ 64 ->
  GoStrconv.Itoa i = GoStrconv.formatBits fuel i "".
Proof.
  intros Hf Hi. unfold GoStrconv.Itoa.
  destruct (Z.ltb_spec i 0); [lia |].
  symmetry. apply (formatBits_fuel 19); [exact Hf |].
  assert (2 ^ 64 < 10 ^ Z.of_nat 20) by reflexivity. lia.
Qed.

Lemma EncryptKey_String_decimal (k : Z) :
  is_uint8 k -> EncryptKey_String k = spec_decimal k.
Proof.
  intros Hk. apply String.eqb_eq.
  apply (uint8_enumerated
           (fun k => String.eqb (EncryptKey_String k) (spec_decimal k)));
    [| exact Hk].
  vm_compute. reflexivity.
Qed.

End EncryptKeyFacts.

(** C8.  [EncryptKeyEmpty] is not valid; every key other than 0 is valid;
    and [String()] of every key is the decimal representation of its
    value. *)
Theorem EncryptKey_valid_decimal (k : EncryptKey) :
  is_uint8 k ->
  EncryptKey_IsValid EncryptKeyEmpty = false
  /\ (k <> 0 -> EncryptKey_IsValid k = true)
  /\ EncryptKey_String k = spec_decimal k.
Proof.
  intros Hk. split; [reflexivity | split].
  - intros Hne. unfold EncryptKey_IsValid.
    change EncryptKeyEmpty with 0.
    apply negb_true_iff. now apply Z.eqb_neq.
  - now apply EncryptKey_String_decimal.
Qed.

Lemma EncryptKey_valid_decimal_witness :
  is_uint8 207
  /\ EncryptKey_IsValid 207 = true
  /\ EncryptKey_String 207 = "207".
Proof.
  assert (H : is_uint8 207) by (unfold is_uint8; lia).
  destruct (EncryptKey_valid_decimal 207 H) as (_ & Hvalid & Hstr).
  split; [exact H | split].
  - apply Hvalid. discriminate.
  - exact Hstr.
Defined.

(** C9.  [RequestedIdentity(0)] is not valid; for every [v] other than 0,
    [RequestedIdentity(v)] is valid and its [ID()] is [v] as a
    [NumericIdentity]. *)
Theorem RequestedIdentity_valid_ID :
  RequestedIdentity_IsValid (toRequestedIdentity 0) = false
  /\ (forall v : NumericIdentity,
        v <> 0 ->
        RequestedIdentity_IsValid (toRequestedIdentity v) = true
        /\ RequestedIdentity_ID (toRequestedIdentity v) = v).
Proof.
  split; [reflexivity |].
  intros v Hne. split; [| reflexivity].
  unfold RequestedIdentity_IsValid, toRequestedIdentity.
  apply negb_true_iff. now apply Z.eqb_neq.
Qed.

Lemma RequestedIdentity_valid_ID_witness :
  RequestedIdentity_IsValid (toRequestedIdentity 16777217) = true
  /\ RequestedIdentity_ID (toRequestedIdentity 16777217) = 16777217.
Proof.
  apply (proj2 RequestedIdentity_valid_ID 16777217). discriminate.
Defined.

(** * Further properties *)

(** ** The encoding of a ResourceID and its decoding *)

Section EncodingFacts.

Lemma Count_slash_app (a b : string) :
  Count (a ++ "/" ++ b) slash = Count a slash + 1 + Count b slash.
Proof.
  change (a ++ "/" ++ b) with (a ++ String slash b).
  rewrite Count_app. cbn [Count]. rewrite Ascii.eqb_refl. lia.
Qed.

Lemma Count_NewResourceID (kind : ResourceKind) (namespace name : string) :
  Count (NewResourceID kind namespace name) slash
  = Count kind slash + Count namespace slash + Count name slash + 2.
Proof. rewrite NewResourceID_eq, !Count_slash_app. lia. Qed.

(** Two delimiters are enough for three parts. *)
Lemma SplitN_three (r : string) :
  2 <= Count r slash -> List.length (SplitN r slash 3) = 3%nat.
Proof.
  intros H2.
  destruct (delimiter_cases r)
    as [H0 | [(a & b & -> & Ha & Hb) | (a & b & c & -> & Ha & Hb)]].
  - unfold NoSlash in H0. lia.
  - rewrite Count_slash_app in H2. unfold NoSlash in Ha, Hb. lia.
  - now rewrite SplitN_two.
Qed.

(** The first segment of a string is not changed by what follows a
    delimiter put after the string. *)
Lemma spec_segments_hd_app (x y : string) :
  hd "" (spec_segments (x ++ "/" ++ y)) = hd "" (spec_segments x).
Proof.
  induction x as [|b x IH]; cbn [append spec_segments].
  - reflexivity.
  - destruct (Ascii.eqb b slash); [reflexivity |].
    cbn [append] in IH.
    destruct (spec_segments_head (x ++ String "/" y)) as (h & t & E).
    destruct (spec_segments_head x) as (h' & t' & E').
    rewrite E, E' in *. cbn [hd] in *. now rewrite IH.
Qed.

Lemma nth_1_cons (a : string) (l : list string) :
  nth 1 (a :: l) "" = hd "" l.
Proof. now destruct l. Qed.

(** After a first segment without delimiter, [Namespace] returns the first
    segment of the rest. *)
Lemma Namespace_after_first (a y : string) :
  NoSlash a -> Namespace (a ++ "/" ++ y) = hd "" (spec_segments y).
Proof.
  intros Ha. rewrite Namespace_spec_segments.
  rewrite spec_segments_first by exact Ha. apply nth_1_cons.
Qed.

End EncodingFacts.

(** X1.  Decoding what was encoded: when kind and namespace contain no
    ['/'], the split that [Namespace] takes of [NewResourceID kind namespace
    name] is exactly the three components, whatever the name contains. *)
Theorem SplitN_NewResourceID
  (kind : ResourceKind) (namespace name : string) :
  NoSlash kind -> NoSlash namespace ->
  SplitN (NewResourceID kind namespace name) slash 3
  = [kind; namespace; name].
Proof.
  intros Hk Hn. rewrite NewResourceID_eq. now apply SplitN_two.
Qed.

Lemma SplitN_NewResourceID_witness :
  SplitN (NewResourceID ResourceKindFile "ns" "a/b//c") slash 3
  = [ResourceKindFile; "ns"; "a/b//c"].
Proof.
  apply (SplitN_NewResourceID ResourceKindFile "ns" "a/b//c"); reflexivity.
Defined.

(** X2.  [NewResourceID] identifies its source uniquely: two calls with
    kinds and namespaces free of ['/'] give the same ResourceID only when
    kind, namespace and name are the same. *)
Theorem NewResourceID_injective
  (kind kind' : ResourceKind) (namespace namespace' name name' : string) :
  NoSlash kind -> NoSlash namespace ->
  NoSlash kind' -> NoSlash namespace' ->
  NewResourceID kind namespace name = NewResourceID kind' namespace' name' ->
  kind = kind' /\ namespace = namespace' /\ name = name'.
Proof.
  intros Hk Hn Hk' Hn' E.
  apply (f_equal (fun r => SplitN r slash 3)) in E.
  rewrite !NewResourceID_eq in E.
  rewrite SplitN_two in E by trivial.
  rewrite SplitN_two in E by trivial.
  now inversion E.
Qed.

Lemma NewResourceID_injective_witness :
  ResourceKindCNP = "cnp" /\ "kube-system" = "kube-system"
  /\ "allow-dns" = "allow-dns".
Proof.
  apply (NewResourceID_injective
           ResourceKindCNP "cnp" "kube-system" "kube-system"
           "allow-dns" "allow-dns"); reflexivity.
Defined.

(** X3.  The encoding does not tell a ['/'] of the namespace from the
    delimiter: a namespace [a/b] with name [n] and a namespace [a] with
    name [b/n] give the same ResourceID. *)
Theorem NewResourceID_collision
  (kind : ResourceKind) (a b n : string) :
  NewResourceID kind (a ++ "/" ++ b) n = NewResourceID kind a (b ++ "/" ++ n).
Proof.
  rewrite !NewResourceID_eq.
  change (a ++ "/" ++ b) with (a ++ String slash b).
  rewrite app_assoc. reflexivity.
Qed.

(** X4.  The length of the ResourceID is the count that [NewResourceID]
    hands to [Grow] before it writes: the lengths of the three components
    and two bytes for the delimiters. *)
Theorem NewResourceID_length
  (kind : ResourceKind) (namespace name : string) :
  len (NewResourceID kind namespace name)
  = len kind + 1 + len namespace + 1 + len name.
Proof.
  rewrite NewResourceID_eq.
  change (kind ++ "/" ++ namespace ++ "/" ++ name)
    with (kind ++ String slash (namespace ++ String slash name)).
  rewrite len_app, len_String, len_app, len_String. lia.
Qed.

(** X5.  The split of [Namespace] has as many parts as the string has
    delimiters, and one more, up to three. *)
Theorem SplitN_parts_count (r : ResourceID) :
  Z.of_nat (List.length (SplitN r slash 3)) = Z.min 3 (Count r slash + 1).
Proof.
  destruct (delimiter_cases r)
    as [H0 | [(a & b & -> & Ha & Hb) | (a & b & c & -> & Ha & Hb)]].
  - rewrite SplitN_absent by trivial. unfold NoSlash in H0.
    rewrite H0. reflexivity.
  - rewrite SplitN_one by trivial. rewrite Count_slash_app.
    unfold NoSlash in Ha, Hb. rewrite Ha, Hb. reflexivity.
  - rewrite SplitN_two by trivial. rewrite !Count_slash_app.
    unfold NoSlash in Ha, Hb. rewrite Ha, Hb.
    pose proof (Count_nonneg slash c). cbn [List.length]. lia.
Qed.

(** X6.  A ResourceID made by [NewResourceID] always splits into three
    parts, for all components: [Namespace] never takes its fallback on
    it. *)
Theorem NewResourceID_three_parts
  (kind : ResourceKind) (namespace name : string) :
  List.length (SplitN (NewResourceID kind namespace name) slash 3) = 3%nat
  /\ (Z.of_nat
        (List.length (SplitN (NewResourceID kind namespace name) slash 3))
      <? 2) = false.
Proof.
  assert (H : List.length (SplitN (NewResourceID kind namespace name) slash 3)
              = 3%nat).
  { apply SplitN_three. rewrite Count_NewResourceID.
    pose proof (Count_nonneg slash kind).
    pose proof (Count_nonneg slash namespace).
    pose proof (Count_nonneg slash name). lia. }
  split; [exact H | now rewrite H].
Qed.

(** X7.  What [Namespace] returns never contains a ['/']. *)
Theorem Namespace_NoSlash (r : ResourceID) : NoSlash (Namespace r).
Proof.
  destruct (delimiter_cases r)
    as [H0 | [(a & b & -> & Ha & Hb) | (a & b & c & -> & Ha & Hb)]].
  - now rewrite Namespace_absent.
  - now rewrite Namespace_one.
  - now rewrite Namespace_two.
Qed.

(** X8.  With a kind free of ['/'], the namespace read back from
    [NewResourceID kind namespace name] is the namespace up to its first
    ['/']: a namespace that contains the delimiter is cut there. *)
Theorem Namespace_NewResourceID_cut
  (kind : ResourceKind) (namespace name : string) :
  NoSlash kind ->
  Namespace (NewResourceID kind namespace name)
  = hd "" (spec_segments namespace).
Proof.
  intros Hk. rewrite NewResourceID_eq.
  rewrite Namespace_after_first by exact Hk.
  apply spec_segments_hd_app.
Qed.

Lemma Namespace_NewResourceID_cut_witness :
  Namespace (NewResourceID ResourceKindNode "a/b" "n") = "a".
Proof.
  apply (Namespace_NewResourceID_cut ResourceKindNode "a/b" "n").
  reflexivity.
Defined.

(** X9.  A kind that contains ['/'] hides the namespace: what [Namespace]
    returns is then the same for every namespace and name. *)
Theorem Namespace_NewResourceID_masked
  (kind : ResourceKind) (namespace name : string) :
  0 < Count kind slash ->
  Namespace (NewResourceID kind namespace name)
  = Namespace (NewResourceID kind "" "").
Proof.
  intros Hk.
  destruct (first_occurrence slash kind Hk) as (a & b & -> & Ha & _).
  assert (E : forall y : string,
             (a ++ String slash b) ++ "/" ++ y = a ++ "/" ++ (b ++ "/" ++ y))
    by (intros y; now rewrite app_assoc).
  rewrite !NewResourceID_eq, !E.
  rewrite !Namespace_after_first by exact Ha.
  now rewrite !spec_segments_hd_app.
Qed.

Lemma Namespace_NewResourceID_masked_witness :
  Namespace (NewResourceID "x/y" "ns" "n")
  = Namespace (NewResourceID "x/y" "" "").
Proof.
  apply (Namespace_NewResourceID_masked "x/y" "ns" "n"). reflexivity.
Defined.

(** X10.  The split loses nothing: the parts that [Namespace] splits a
    string into, joined by ['/'], are the string. *)
Theorem SplitN_concat (r : ResourceID) :
  String.concat "/" (SplitN r slash 3) = r.
Proof.
  destruct (delimiter_cases r)
    as [H0 | [(a & b & -> & Ha & Hb) | (a & b & c & -> & Ha & Hb)]].
  - now rewrite SplitN_absent.
  - now rewrite SplitN_one.
  - now rewrite SplitN_two.
Qed.

(** X17.  The kind can always be read back: two ResourceIDs made from
    kinds free of ['/'] are the same only when the kinds are, whatever
    the namespaces and names contain. *)
Theorem NewResourceID_kind_injective
  (kind kind' : ResourceKind) (namespace namespace' name name' : string) :
  NoSlash kind -> NoSlash kind' ->
  NewResourceID kind namespace name = NewResourceID kind' namespace' name' ->
  kind = kind'.
Proof.
  intros Hk Hk' E.
  apply (f_equal (fun r => hd "" (spec_segments r))) in E.
  rewrite !NewResourceID_eq, !spec_segments_hd_app in E.
  now rewrite !spec_segments_absent in E.
Qed.

Lemma NewResourceID_kind_injective_witness :
  ResourceKindEndpoint = "ep".
Proof.
  apply (NewResourceID_kind_injective
           ResourceKindEndpoint "ep" "a/b" "a" "c" "b/c"); reflexivity.
Defined.

(** ** Sequences of operations on EndpointFlags *)

Section EndpointFlagsSequences.

Lemma applyOps_app (e : EndpointFlags) (ops1 ops2 : list EndpointFlagsOp) :
  applyOps e (ops1 ++ ops2) = applyOps (applyOps e ops1) ops2.
Proof. unfold applyOps. apply fold_left_app. Qed.

(** Reading does not change the value. *)
Lemma applyOps_readers (ops : list EndpointFlagsOp) (e : EndpointFlags) :
  existsb isSetter ops = false -> applyOps e ops = e.
Proof.
  unfold applyOps. revert e.
  induction ops as [|op ops IH]; intros e; cbn [existsb fold_left].
  - reflexivity.
  - intros H. apply orb_false_iff in H as [Hop Hops].
    rewrite IH by exact Hops. now destruct op.
Qed.

(** No operation sets the flag of a value and leaves it uninitialized. *)
Lemma applyOps_flag_init (ops : list EndpointFlagsOp) (e : EndpointFlags) :
  (flagSkipTunnel e = true -> isInit e = true) ->
  flagSkipTunnel (applyOps e ops) = true -> isInit (applyOps e ops) = true.
Proof.
  unfold applyOps. revert e.
  induction ops as [|op ops IH]; intros e He; cbn [fold_left].
  - exact He.
  - apply IH. destruct op; cbn [applyOp]; trivial.
Qed.

End EndpointFlagsSequences.

(** X11.  The last call of [SetSkipTunnel] decides: after any operations,
    a call [SetSkipTunnel(skip)] and then only calls of [IsValid] and
    [Uint8], the value is initialized with the flag [skip], and its
    [Uint8()] is 1 for [skip] true and 0 for [skip] false, whatever the
    value was at first. *)
Theorem SetSkipTunnel_last_wins
  (e : EndpointFlags) (before after : list EndpointFlagsOp) (skip : bool) :
  existsb isSetter after = false ->
  applyOps e (before ++ OpSetSkipTunnel skip :: after)
  = mkEndpointFlags true skip
  /\ EndpointFlags_Uint8 (applyOps e (before ++ OpSetSkipTunnel skip :: after))
     = (if skip then 1 else 0).
Proof.
  intros Hafter.
  assert (E : applyOps e (before ++ OpSetSkipTunnel skip :: after)
              = mkEndpointFlags true skip).
  { rewrite applyOps_app.
    change (OpSetSkipTunnel skip :: after)
      with ([OpSetSkipTunnel skip] ++ after)%list.
    rewrite applyOps_app, (applyOps_readers after) by exact Hafter.
    reflexivity. }
  split; [exact E |]. rewrite E. now destruct skip.
Qed.

Lemma SetSkipTunnel_last_wins_witness :
  applyOps zeroEndpointFlags
    ([OpSetSkipTunnel true; OpUint8] ++ OpSetSkipTunnel false :: [OpIsValid])
  = mkEndpointFlags true false
  /\ EndpointFlags_Uint8
       (applyOps zeroEndpointFlags
          ([OpSetSkipTunnel true; OpUint8]
             ++ OpSetSkipTunnel false :: [OpIsValid]))
     = 0.
Proof.
  apply (SetSkipTunnel_last_wins zeroEndpointFlags
           [OpSetSkipTunnel true; OpUint8] [OpIsValid] false).
  reflexivity.
Defined.

(** X12.  Starting from the zero value, a value whose [Uint8()] is not 0
    is always valid: through the operations of the type the flag is never
    set on a value that stays uninitialized. *)
Theorem Uint8_set_is_valid (ops : list EndpointFlagsOp) :
  EndpointFlags_Uint8 (applyOps zeroEndpointFlags ops) <> 0 ->
  EndpointFlags_IsValid (applyOps zeroEndpointFlags ops) = true.
Proof.
  intros Hne. unfold EndpointFlags_IsValid.
  apply applyOps_flag_init; [discriminate |].
  rewrite Uint8_of_flag in Hne.
  destruct (flagSkipTunnel (applyOps zeroEndpointFlags ops));
    [reflexivity | contradiction].
Qed.

Lemma Uint8_set_is_valid_witness :
  EndpointFlags_IsValid
    (applyOps zeroEndpointFlags [OpIsValid; OpSetSkipTunnel true]) = true.
Proof.
  apply (Uint8_set_is_valid [OpIsValid; OpSetSkipTunnel true]).
  discriminate.
Defined.

(** ** The text of an EncryptKey *)

Section EncryptKeyText.

Lemma EncryptKey_String_value (k : Z) :
  is_uint8 k -> decimalValue (EncryptKey_String k) = k.
Proof.
  intros Hk. apply Z.eqb_eq.
  apply (uint8_enumerated
           (fun k => decimalValue (EncryptKey_String k) =? k));
    [| exact Hk].
  vm_compute. reflexivity.
Qed.

End EncryptKeyText.

(** X13.  Keys that differ have texts that differ: [String()] is injective
    on the values of [EncryptKey]. *)
Theorem EncryptKey_String_injective (k k' : EncryptKey) :
  is_uint8 k -> is_uint8 k' ->
  EncryptKey_String k = EncryptKey_String k' -> k = k'.
Proof.
  intros Hk Hk' E.
  rewrite <- (EncryptKey_String_value k Hk).
  rewrite <- (EncryptKey_String_value k' Hk').
  now rewrite E.
Qed.

Lemma EncryptKey_String_injective_witness : 41 = 41.
Proof.
  apply (EncryptKey_String_injective 41 41);
    [unfold is_uint8; lia | unfold is_uint8; lia | reflexivity].
Defined.

(** X14.  [String()] of a key is one to three decimal digits, with no
    leading zero, and it is the text of zero exactly for the key that is
    not valid. *)
Theorem EncryptKey_String_digits (k : EncryptKey) :
  is_uint8 k ->
  (1 <= String.length (EncryptKey_String k) <= 3)%nat
  /\ forallb isDigit (list_ascii_of_string (EncryptKey_String k)) = true
  /\ (k <> 0 -> String.get 0 (EncryptKey_String k) <> Some "0"%char)
  /\ (EncryptKey_String k = "0" <-> EncryptKey_IsValid k = false).
Proof.
  intros Hk.
  pose (P := fun k : Z =>
    let s := EncryptKey_String k in
    (1 <=? Z.of_nat (String.length s)) && (Z.of_nat (String.length s) <=? 3)
    && forallb isDigit (list_ascii_of_string s)
    && ((k =? 0)
        || negb (match String.get 0 s with
                 | Some c => Ascii.eqb c "0"%char
                 | None => true
                 end))
    && Bool.eqb (String.eqb s "0") (negb (EncryptKey_IsValid k))).
  assert (HP : P k = true).
  { apply uint8_enumerated; [vm_compute; reflexivity | exact Hk]. }
  unfold P in HP. cbv zeta in HP.
  apply andb_true_iff in HP as [HP Hzero].
  apply andb_true_iff in HP as [HP Hlead].
  apply andb_true_iff in HP as [HP Hdig].
  apply andb_true_iff in HP as [Hlo Hhi].
  apply Z.leb_le in Hlo, Hhi.
  split; [lia | split; [exact Hdig | split]].
  - intros Hne Hget. rewrite Hget, Ascii.eqb_refl in Hlead.
    apply orb_true_iff in Hlead as [Hlead | Hlead]; [| discriminate].
    apply Z.eqb_eq in Hlead. contradiction.
  - apply eqb_prop in Hzero. split.
    + intros E. rewrite E in Hzero. cbn in Hzero.
      now apply negb_true_iff.
    + intros E. rewrite E in Hzero. now apply String.eqb_eq.
Qed.

Lemma EncryptKey_String_digits_witness :
  (1 <= String.length (EncryptKey_String 207%Z) <= 3)%nat
  /\ forallb isDigit (list_ascii_of_string (EncryptKey_String 207)) = true
  /\ (207 <> 0 -> String.get 0 (EncryptKey_String 207) <> Some "0"%char)
  /\ (EncryptKey_String 207 = "0" <-> EncryptKey_IsValid 207 = false).
Proof.
  apply (EncryptKey_String_digits 207). unfold is_uint8. lia.
Defined.

(** ** The bytes of a tunnel peer *)

Section TunnelPeerFacts.

Import GoNetip.

Lemma uint8_range (v : Z) : is_uint8 (uint8 v).
Proof. unfold is_uint8, uint8. apply Z.mod_pos_bound. reflexivity. Qed.

Lemma BEPutUint32_range (v : Z) : Forall is_uint8 (BEPutUint32 v).
Proof. unfold BEPutUint32. repeat constructor; apply uint8_range. Qed.

Lemma BEPutUint64_range (v : Z) : Forall is_uint8 (BEPutUint64 v).
Proof. unfold BEPutUint64. repeat constructor; apply uint8_range. Qed.

(** Reading back the bytes written for a word, after the bytes read
    before. *)
Lemma BEPutUint32_value (acc v : Z) :
  0 <= v < 2 ^ 32 ->
  fold_left (fun a b => a * 256 + b) (BEPutUint32 v) acc = acc * 2 ^ 32 + v.
Proof.
  intros Hv. unfold BEPutUint32, uint8. cbn [fold_left].
  rewrite !Z.shiftr_div_pow2 by lia.
  change (2 ^ 8) with 256. change (2 ^ 16) with 65536.
  change (2 ^ 24) with 16777216. change (2 ^ 32) with 4294967296 in *.
  Z.div_mod_to_equations. lia.
Qed.

Lemma BEPutUint64_value (acc v : Z) :
  is_uint64 v ->
  fold_left (fun a b => a * 256 + b) (BEPutUint64 v) acc = acc * 2 ^ 64 + v.
Proof.
  unfold is_uint64. intros Hv. unfold BEPutUint64, uint8. cbn [fold_left].
  rewrite !Z.shiftr_div_pow2 by lia.
  change (2 ^ 8) with 256 in *. change (2 ^ 16) with 65536 in *.
  change (2 ^ 24) with 16777216 in *. change (2 ^ 32) with 4294967296 in *.
  change (2 ^ 40) with 1099511627776 in *.
  change (2 ^ 48) with 281474976710656 in *.
  change (2 ^ 56) with 72057594037927936 in *.
  change (2 ^ 64) with 18446744073709551616 in *.
  Z.div_mod_to_equations. lia.
Qed.

End TunnelPeerFacts.

(** X15.  [IP()] of a tunnel peer has no byte, four bytes or sixteen bytes,
    each of them in [0 .. 255]; it has no byte exactly for the zero
    [Addr]. *)
Theorem TunnelPeer_IP_shape (t : TunnelPeer) :
  Forall is_uint8 (TunnelPeer_IP t)
  /\ (List.length (TunnelPeer_IP t)
      = match GoNetip.z (Addr t) with
        | GoNetip.z0 => 0
        | GoNetip.z4 => 4
        | GoNetip.z6 _ => 16
        end)%nat
  /\ (TunnelPeer_IP t = [] <-> GoNetip.z (Addr t) = GoNetip.z0).
Proof.
  unfold TunnelPeer_IP, GoNetip.AsSlice.
  destruct (GoNetip.z (Addr t)) as [| | zone].
  - repeat split; trivial.
  - split; [apply BEPutUint32_range | split; [reflexivity |]].
    split; discriminate.
  - split; [| split; [reflexivity |]].
    + apply Forall_app. split; apply BEPutUint64_range.
    + split; discriminate.
Qed.

(** X16.  The bytes of [IP()] write the address with the most significant
    byte first: the low 32 bits of the address for IPv4, all of its 128
    bits otherwise. *)
Theorem TunnelPeer_IP_big_endian (t : TunnelPeer) :
  GoNetip.is_uint64 (GoNetip.hi (Addr t)) ->
  GoNetip.is_uint64 (GoNetip.lo (Addr t)) ->
  GoNetip.BEValue (TunnelPeer_IP t)
  = match GoNetip.z (Addr t) with
    | GoNetip.z0 => 0
    | GoNetip.z4 => GoNetip.lo (Addr t) mod 2 ^ 32
    | GoNetip.z6 _ => GoNetip.hi (Addr t) * 2 ^ 64 + GoNetip.lo (Addr t)
    end.
Proof.
  intros Hhi Hlo.
  unfold TunnelPeer_IP, GoNetip.AsSlice, GoNetip.BEValue.
  destruct (GoNetip.z (Addr t)) as [| | zone].
  - reflexivity.
  - rewrite BEPutUint32_value; [reflexivity |].
    unfold uint32. apply Z.mod_pos_bound. reflexivity.
  - rewrite fold_left_app.
    rewrite (BEPutUint64_value 0) by exact Hhi.
    rewrite BEPutUint64_value by exact Hlo. reflexivity.
Qed.

Lemma TunnelPeer_IP_big_endian_witness :
  TunnelPeer_IP
    (mkTunnelPeer (GoNetip.mkAddr 0 0xffff0a000001 GoNetip.z4))
  = [10; 0; 0; 1]
  /\ GoNetip.BEValue
       (TunnelPeer_IP
          (mkTunnelPeer (GoNetip.mkAddr 0 0xffff0a000001 GoNetip.z4)))
     = 0x0a000001.
Proof.
  split; [reflexivity |].
  apply (TunnelPeer_IP_big_endian
           (mkTunnelPeer (GoNetip.mkAddr 0 0xffff0a000001 GoNetip.z4)));
    unfold GoNetip.is_uint64; cbn; lia.
Defined.
